(** * mesc: environment overrides of the RPC configuration

    A shallow embedding of [python/mesc/overrides.py].  Python raises an
    exception where a name is unbound, an attribute is missing or a call does
    not fit the signature of the function; the embedding keeps these outcomes,
    so every function returns in an error monad, and [apply_env_overrides],
    which works on a copy of the caller's object, runs in a state monad over
    a store of configuration objects. *)

From Stdlib Require Import Ascii String.
From stdpp Require Import gmap strings list fin_maps.

Local Open Scope string_scope.

(** ** Exceptions and results *)

(** The exceptions the module can end in.  [InvalidOverride] and
    [MissingEndpoint] are the two classes the source takes from its
    [exceptions] module; the others are Python's own, but for
    [DanglingReference], which the store gives for a reference to no
    object. *)
Inductive exception : Type :=
  | TypeError (msg : string)
  | AttributeError (type_name attr : string)
  | NameError (name : string)
  | ValueError (msg : string)
  | KeyError (key : string)
  | JSONDecodeError
  | InvalidOverride (msg : string)
  | MissingEndpoint (msg : string)
  | IndexError
  | Exception (msg : string)
  | DanglingReference.

Inductive result (A : Type) : Type :=
  | Ok (a : A)
  | Raise (e : exception).
Arguments Ok {A} a.
Arguments Raise {A} e.

#[global] Instance result_ret : MRet result := λ A a, Ok a.
#[global] Instance result_bind : MBind result := λ A B f r,
  match r with
  | Ok a => f a
  | Raise e => Raise e
  end.

#[global] Instance result_fmap : FMap result := λ A B f r,
  match r with
  | Ok a => Ok (f a)
  | Raise e => Raise e
  end.

Definition returns {A} (r : result A) : bool :=
  match r with Ok _ => true | Raise _ => false end.

Definition raises {A} (r : result A) (e : exception) : Prop := r = Raise e.

(** ** Python values *)

(** The values that configuration fields and JSON documents hold.  [VExc] is
    an exception object used as a value ([env_default_endpoint] returns one)
    and [VFunction] a function object of the module. *)
#[warnings="-register-all"]
Inductive value : Type :=
  | VNone
  | VBool (b : bool)
  | VInt (z : Z)
  | VStr (s : string)
  | VList (l : list value)
  | VDict (d : list (string * value))
  | VExc (e : exception)
  | VFunction (fname : string).

Definition type_name (v : value) : string :=
  match v with
  | VNone => "NoneType"
  | VBool _ => "bool"
  | VInt _ => "int"
  | VStr _ => "str"
  | VList _ => "list"
  | VDict _ => "dict"
  | VExc _ => "Exception"
  | VFunction _ => "function"
  end.

Definition is_none (v : value) : bool :=
  match v with VNone => true | _ => false end.

(** Hashable keys of the dictionaries that hold plain values.  Python keeps
    ["1"] and [1] apart: [network_defaults] is read with an [int] by
    [_chain_id_to_endpoint_name], while a JSON document has [str] keys. *)
Inductive key : Type :=
  | KNone
  | KStr (s : string)
  | KInt (z : Z).

#[global] Instance key_eq_dec : EqDecision key.
Proof. solve_decision. Defined.

#[global] Instance key_countable : Countable key.
Proof.
  refine (inj_countable'
            (λ k, match k with
                  | KNone => inl ()
                  | KStr s => inr (inl s)
                  | KInt z => inr (inr z)
                  end)
            (λ x, match x with
                  | inl _ => KNone
                  | inr (inl s) => KStr s
                  | inr (inr z) => KInt z
                  end) _).
  by intros [].
Defined.

(** The key a value hashes to.  [True == 1] in Python; exception and
    function objects hash by identity and are keys of no dictionary here;
    lists and dictionaries are unhashable. *)
Definition key_of (v : value) : result (option key) :=
  match v with
  | VNone => Ok (Some KNone)
  | VStr s => Ok (Some (KStr s))
  | VInt z => Ok (Some (KInt z))
  | VBool b => Ok (Some (KInt (if b then 1 else 0)))
  | VExc _ | VFunction _ => Ok None
  | VList _ | VDict _ => Raise (TypeError "unhashable type")
  end.

(** ** str methods *)

(** [s.split(sep)] for a one-character separator: every occurrence splits,
    and the result has at least one element. *)
Fixpoint str_split (sep : ascii) (s : string) : list string :=
  match s with
  | EmptyString => [EmptyString]
  | String c rest =>
      if Ascii.eqb c sep then EmptyString :: str_split sep rest
      else match str_split sep rest with
           | hd :: tl => String c hd :: tl
           | [] => [String c EmptyString]
           end
  end.

(** [s.split(sep, maxsplit)]. *)
Fixpoint str_split_max (sep : ascii) (maxsplit : nat) (s : string) : list string :=
  match maxsplit with
  | O => [s]
  | S m =>
      match s with
      | EmptyString => [EmptyString]
      | String c rest =>
          if Ascii.eqb c sep then EmptyString :: str_split_max sep m rest
          else match str_split_max sep maxsplit rest with
               | hd :: tl => String c hd :: tl
               | [] => [String c EmptyString]
               end
      end
  end.

Definition str_startswith (p s : string) : bool := String.prefix p s.

(** ** Attribute lookup *)

(** [v.split(sep)]: only [str] has the method. *)
Definition call_split (v : value) (sep : ascii) : result (list string) :=
  match v with
  | VStr s => Ok (str_split sep s)
  | _ => Raise (AttributeError (type_name v) "split")
  end.

(** [v.split(sep, maxsplit)]. *)
Definition call_split_max (v : value) (sep : ascii) (n : nat) : result (list string) :=
  match v with
  | VStr s => Ok (str_split_max sep n s)
  | _ => Raise (AttributeError (type_name v) "split")
  end.

(** [v.startswith(p)]. *)
Definition call_startswith (v : value) (p : string) : result bool :=
  match v with
  | VStr s => Ok (str_startswith p s)
  | _ => Raise (AttributeError (type_name v) "startswith")
  end.

(** [v.is_decimal()]: no type of [value] has an attribute of this name (the
    method of [str] is spelled [isdecimal]). *)
Definition call_is_decimal (v : value) : result bool :=
  Raise (AttributeError (type_name v) "is_decimal").

(** [v.items()]: a [dict] method. *)
Definition call_items (v : value) : result (list (string * value)) :=
  match v with
  | VDict d => Ok d
  | _ => Raise (AttributeError (type_name v) "items")
  end.

(** ** Names and calls *)

(** The names bound at module level: the imports and the functions. *)
Definition module_globals : list string :=
  [ "annotations"; "copy"; "json"; "os"; "re"; "Any"; "Mapping";
    "directory"; "exceptions"; "RpcConfig"; "Endpoint"; "Profile";
    "apply_env_overrides"; "env_default_endpoint";
    "_chain_id_to_endpoint_name"; "env_network_defaults";
    "env_network_names"; "env_endpoints"; "_collect_ad_hoc_endpoints";
    "env_profiles"; "env_global_metadata"; "env_endpoint_metadata" ].

(** Reading a name that is bound nowhere: no local of the function, no
    module global, no builtin. *)
Definition unbound_name {A} (name : string) : result A := Raise (NameError name).

(** Binding the arguments of a call to the parameters of a [def] without
    defaults: [npos] positional arguments and the keyword arguments [kws]
    must fill exactly the parameters [params]. *)
Definition binds (params : list string) (npos : nat) (kws : list string) : bool :=
  bool_decide (npos ≤ List.length params)%nat
  && forallb (λ k, bool_decide (k ∈ drop npos params)) kws
  && forallb (λ p, bool_decide (p ∈ kws)) (drop npos params)
  && bool_decide (NoDup kws).

Definition arity_error (fname : string) : exception :=
  TypeError (fname ++ "() does not accept these arguments").

Definition call {A} (fname : string) (params : list string)
    (npos : nat) (kws : list string) (body : result A) : result A :=
  if binds params npos kws then body
  else Raise (arity_error fname).

(** Unpacking [a, b = xs]. *)
Definition unpack2 {A} (xs : list A) : result (A * A) :=
  match xs with
  | [a; b] => Ok (a, b)
  | _ => Raise (ValueError "unpack: expected 2 values")
  end.

Definition unpack3 {A} (xs : list A) : result (A * A * A) :=
  match xs with
  | [a; b; c] => Ok (a, b, c)
  | _ => Raise (ValueError "unpack: expected 3 values")
  end.

(** A [for] loop whose body may raise. *)
Fixpoint for_each {A S} (body : S → A → result S) (xs : list A) (s : S) : result S :=
  match xs with
  | [] => Ok s
  | x :: rest => s' ← body s x; for_each body rest s'
  end.

(** ** Dictionaries *)

(** A dictionary literal or comprehension as an association list in
    insertion order: a later binding of a key replaces the value in place. *)
Fixpoint assoc_set {V} (k : string) (v : V) (d : list (string * V)) : list (string * V) :=
  match d with
  | [] => [(k, v)]
  | (k', v') :: rest =>
      if String.eqb k k' then (k, v) :: rest else (k', v') :: assoc_set k v rest
  end.

(** [k in d] and [d[k]] for a dictionary with [str] keys (endpoints,
    profiles). *)
Definition str_key_of (v : value) : result (option string) :=
  k ← key_of v;
  Ok (match k with Some (KStr s) => Some s | _ => None end).

Definition dict_contains {V} (d : gmap string V) (k : value) : result bool :=
  ks ← str_key_of k;
  Ok (match ks with Some s => bool_decide (is_Some (d !! s)) | None => false end).

Definition dict_getitem {V} (d : gmap string V) (k : value) : result V :=
  ks ← str_key_of k;
  match ks ≫= (d !!.) with
  | Some v => Ok v
  | None => Raise (KeyError (match k with VStr s => s | _ => type_name k end))
  end.

(** [k in d], [d[k]] and [d.get(k)] for a dictionary of plain values. *)
Definition vdict_contains (d : gmap key value) (k : value) : result bool :=
  ko ← key_of k;
  Ok (match ko with Some k' => bool_decide (is_Some (d !! k')) | None => false end).

Definition vdict_getitem (d : gmap key value) (k : value) : result value :=
  ko ← key_of k;
  match ko ≫= (d !!.) with
  | Some v => Ok v
  | None => Raise (KeyError (match k with VStr s => s | _ => type_name k end))
  end.

Definition vdict_get (d : gmap key value) (k : value) : result value :=
  ko ← key_of k;
  Ok (default VNone (ko ≫= (d !!.))).

(** One element of the iterable given to [dict.update]: a sequence of
    exactly two items, the first a hashable key. *)
Definition update_pair (d : gmap key value) (elt : value) : result (gmap key value) :=
  kv ← match elt with
       | VList [k; v] => Ok (k, v)
       | VStr (String a (String b EmptyString)) =>
           Ok (VStr (String a EmptyString), VStr (String b EmptyString))
       | VDict [(k1, _); (k2, _)] => Ok (VStr k1, VStr k2)
       | VList _ | VStr _ | VDict _ =>
           Raise (ValueError "dictionary update sequence element: 2 is required")
       | _ => Raise (TypeError "cannot convert dictionary update sequence element")
       end;
  ko ← key_of kv.1;
  match ko with
  | Some k => Ok (<[k := kv.2]> d)
  | None => Raise (TypeError "key outside the model")
  end.

(** [d.update(other)]: the bindings of a mapping, or the pairs of an
    iterable, are written into [d] in order; a later one wins. *)
Definition vdict_update (d : gmap key value) (other : value) : result (gmap key value) :=
  match other with
  | VDict kvs => Ok (fold_left (λ m kv, <[KStr kv.1 := kv.2]> m) kvs d)
  | VList elts => for_each update_pair elts d
  | VStr s => for_each update_pair ((λ c, VStr (String c EmptyString)) <$> list_ascii_of_string s) d
  | _ => Raise (TypeError (type_name other ++ " object is not iterable"))
  end.

(** ** Data model *)

(** Modelled from the spec: the types [RpcConfig], [Endpoint] and [Profile]
    of [mesc/types.py], which is not part of the sources; the fields are those
    of the spec's data model and of the dictionary literals in the source.
    A field holds a [value] where the source stores what a function
    returned. *)
Record Endpoint : Type := mkEndpoint {
  name : string;
  url : string;
  chain_id : value;
  endpoint_metadata : gmap key value
}.

Record Profile : Type := mkProfile {
  profile_default_endpoint : value;
  profile_network_defaults : option (gmap key value)
}.

Record RpcConfig : Type := mkRpcConfig {
  mesc_version : string;
  default_endpoint : value;
  network_defaults : gmap key value;
  network_names : gmap key value;
  endpoints : gmap string Endpoint;
  profiles : gmap string Profile;
  global_metadata : gmap key value
}.

Definition set_default_endpoint (v : value) (c : RpcConfig) : RpcConfig :=
  mkRpcConfig (mesc_version c) v (network_defaults c) (network_names c)
              (endpoints c) (profiles c) (global_metadata c).

Definition set_network_defaults (m : gmap key value) (c : RpcConfig) : RpcConfig :=
  mkRpcConfig (mesc_version c) (default_endpoint c) m (network_names c)
              (endpoints c) (profiles c) (global_metadata c).

Definition set_network_names (m : gmap key value) (c : RpcConfig) : RpcConfig :=
  mkRpcConfig (mesc_version c) (default_endpoint c) (network_defaults c) m
              (endpoints c) (profiles c) (global_metadata c).

Definition set_endpoints (m : gmap string Endpoint) (c : RpcConfig) : RpcConfig :=
  mkRpcConfig (mesc_version c) (default_endpoint c) (network_defaults c)
              (network_names c) m (profiles c) (global_metadata c).

Definition set_profiles (m : gmap string Profile) (c : RpcConfig) : RpcConfig :=
  mkRpcConfig (mesc_version c) (default_endpoint c) (network_defaults c)
              (network_names c) (endpoints c) m (global_metadata c).

Definition set_global_metadata (m : gmap key value) (c : RpcConfig) : RpcConfig :=
  mkRpcConfig (mesc_version c) (default_endpoint c) (network_defaults c)
              (network_names c) (endpoints c) (profiles c) m.

Definition set_endpoint_metadata (m : gmap key value) (e : Endpoint) : Endpoint :=
  mkEndpoint (name e) (url e) (chain_id e) m.

(** The configuration [apply_env_overrides] starts from when it is given
    [None]. *)
Definition empty_config : RpcConfig :=
  {| mesc_version := "1.0";
     default_endpoint := VNone;
     network_defaults := ∅;
     network_names := ∅;
     endpoints := ∅;
     profiles := ∅;
     global_metadata := ∅ |}.

(** The process environment, [os.environ]. *)
Abbreviation environ := (gmap string string).

(** [os.environ.get(name)]: the string, or [None]. *)
Definition environ_get (env : environ) (var : string) : value :=
  match env !! var with
  | Some s => VStr s
  | None => VNone
  end.

(** A dictionary of the source as the receiver of an attribute lookup: the
    lookup depends on its type alone. *)
Definition dict_object {K V} `{Countable K} (d : gmap K V) : value := VDict [].

(** ** The functions of [overrides.py] *)

Section overrides.

(** Library functions and the network directory, which the module only
    calls: [json.loads] on a [str], [re.match] of a pattern on a [str]
    (the groups of the match by name, [None] for a group that took no
    part), [int] on a [str], and [directory.network_name_to_chain_id]. *)
Variable json_loads : string → result value.
Variable re_match : string → string → option (string → value).
Variable int_of_str : string → result Z.
Variable network_name_to_chain_id : value → value.

Definition json_loads_value (v : value) : result value :=
  match v with
  | VStr s => json_loads s
  | _ => Raise (TypeError "the JSON object must be str, bytes or bytearray")
  end.

Definition py_int (v : value) : result value :=
  match v with
  | VStr s => VInt <$> int_of_str s
  | VInt z => Ok (VInt z)
  | VBool b => Ok (VInt (if b then 1 else 0))
  | _ => Raise (TypeError "int() argument must be a string or a number")
  end.

(** [_chain_id_to_endpoint_name(chain_id, config)]; the message of the
    source goes on with [str(chain_id)]. *)
Definition _chain_id_to_endpoint_name (chain_id : value) (config : RpcConfig)
    : result value :=
  endpoint ← vdict_get (network_defaults config) chain_id;
  if is_none (endpoint : value) then
    Raise (MissingEndpoint "no endpoint for given default network")
  else Ok endpoint.

(** [env_default_endpoint(config)] *)
Definition env_default_endpoint (env : environ) (config : RpcConfig)
    : result value :=
  let default_endpoint := environ_get env "MESC_DEFAULT_ENDPOINT" in
  is_endpoint ← dict_contains (endpoints config) default_endpoint;
  if (is_endpoint : bool) then Ok default_endpoint
  else
    is_decimal ← call_is_decimal default_endpoint;
    if (is_decimal : bool) then
      n ← py_int default_endpoint;
      _chain_id_to_endpoint_name n config
    else
      is_network ← vdict_contains (network_names config) default_endpoint;
      if (is_network : bool) then
        chain_id ← vdict_getitem (network_names config) default_endpoint;
        _chain_id_to_endpoint_name chain_id config
      else if negb (is_none (network_name_to_chain_id default_endpoint)) then
        let chain_id := network_name_to_chain_id default_endpoint in
        _chain_id_to_endpoint_name chain_id config
      else
        Ok (VExc (InvalidOverride "Invalid syntax used for MESC_DEFAULT_ENDPOINT")).

(** The comprehension [{name: int(chain_id) for network, endpoint in items}]
    of [env_network_defaults]: each item is unpacked, then the key
    expression reads [name]. *)
Definition network_defaults_entry (acc : gmap key value) (item : list string)
    : result (gmap key value) :=
  '(network, endpoint) ← unpack2 item;
  k ← unbound_name "name";
  c ← unbound_name "chain_id";
  v ← py_int c;
  update_pair acc (VList [k; v]).

(** [env_network_defaults(replace_ad_hoc)] *)
Definition env_network_defaults_params : list string := ["replace_ad_hoc"].

Definition env_network_defaults (env : environ) : result (gmap key value) :=
  let network_defaults := environ_get env "MESC_NETWORK_DEFAULTS" in
  parts ← call_split network_defaults " ";
  let items := (λ item, str_split_max "=" 1 item) <$> parts in
  for_each network_defaults_entry items ∅.

(** [env_network_names()] *)
Definition env_network_names_params : list string := [].

Definition env_network_names (env : environ) : result value :=
  let network_names := environ_get env "MESC_NETWORK_NAMES" in
  is_json ← call_startswith network_names "{";
  if (is_json : bool) then json_loads_value network_names
  else
    parts ← call_split network_names " ";
    let pairs := (λ item, str_split "=" item) <$> parts in
    VDict <$> for_each (λ acc pair,
                 '(k, v) ← unpack2 pair;
                 n ← int_of_str v;
                 Ok (assoc_set k (VInt n) acc)) pairs [].

(** [env_profiles()] *)
Definition env_profiles_params : list string := [].

Definition index {A} (xs : list A) (i : nat) : result A :=
  match xs !! i with
  | Some x => Ok x
  | None => Raise IndexError
  end.

Definition new_profile : Profile :=
  {| profile_default_endpoint := VNone; profile_network_defaults := None |}.

Definition setdefault (k : string) (p : Profile) (d : gmap string Profile)
    : gmap string Profile :=
  match d !! k with
  | Some _ => d
  | None => <[k := p]> d
  end.

(** The body of the loop of [env_profiles]. *)
Definition env_profiles_item (profiles : gmap string Profile) (item : string)
    : result (gmap string Profile) :=
  '(key_, value_) ← unpack2 (str_split "=" item);
  let subkeys := str_split "." key_ in
  subkey0 ← index subkeys 0;
  let profiles := setdefault subkey0 new_profile profiles in
  is_default ← (if bool_decide (List.length subkeys = 2) then
                  s1 ← index subkeys 1; Ok (String.eqb s1 "default_endpoint")
                else Ok false);
  if (is_default : bool) then
    p ← dict_getitem profiles (VStr subkey0);
    Ok (<[subkey0 := mkProfile (VStr value_) (profile_network_defaults p)]> profiles)
  else
    is_network ← (if bool_decide (List.length subkeys = 3) then
                    s1 ← index subkeys 1; Ok (String.eqb s1 "network_defaults")
                  else Ok false);
    if (is_network : bool) then
      '(name_, _, network) ← unpack3 subkeys;
      p ← dict_getitem profiles (VStr name_);
      match profile_network_defaults p with
      | None => Raise (TypeError "'NoneType' object does not support item assignment")
      | Some nd =>
          Ok (<[name_ := mkProfile (profile_default_endpoint p)
                           (Some (<[KStr network := VStr value_]> nd))]> profiles)
      end
    else Raise (Exception "invalid value for MESC_PROFILES").

Definition env_profiles (env : environ) : result (gmap string Profile) :=
  let raw_profiles := environ_get env "MESC_PROFILES" in
  if is_none raw_profiles then Ok ∅
  else
    let profiles : gmap string Profile := ∅ in
    items ← call_split (dict_object profiles) " ";
    for_each env_profiles_item items profiles.

(** [_collect_ad_hoc_endpoints(endpoints)]: the function ends without a
    [return], so its value is [None]. *)
Definition _collect_ad_hoc_endpoints_params : list string := ["endpoints"].

Definition _collect_ad_hoc_endpoints (env : environ)
    (endpoints : gmap string Endpoint) : result value :=
  let raw_endpoints : list value := [] in
  let default_endpoint := environ_get env "MESC_DEFAULT_ENDPOINT" in
  let raw_endpoints := (raw_endpoints ++ [default_endpoint])%list in
  network_defaults ←
    call "env_network_defaults" env_network_defaults_params 0 ["replace"]
         (env_network_defaults env);
  let raw_endpoints :=
    (raw_endpoints ++ (snd <$> map_to_list network_defaults))%list in
  profiles ←
    call "env_profiles" env_profiles_params 0 ["replace"] (env_profiles env);
  for_each (λ (_ : unit) (endpoint : value),
              is_url ← unbound_name "_is_url";
              if (is_url : bool) then Ok () else Ok ())
           raw_endpoints ();;
  Ok VNone.

(** [env_endpoints()] *)
Definition env_endpoints_params : list string := [].

Definition env_endpoints_pattern : string :=
  "^(?P<name>[A-Za-z_-]+)(:(?P<chain_id>\w+))?=(?P<url>.*)".

Definition str_of (v : value) : result string :=
  match v with
  | VStr s => Ok s
  | _ => Raise (TypeError "expected str")
  end.

(** The body of the loop of [env_endpoints]: the subject of the match is
    the name [string], not the loop variable. *)
Definition env_endpoints_item (endpoints : gmap string Endpoint) (item : string)
    : result (gmap string Endpoint) :=
  subject ← unbound_name "string";
  match re_match env_endpoints_pattern subject with
  | Some group =>
      name_ ← str_of (group "name");
      let chain_id_ := group "chain_id" in
      url_ ← str_of (group "url");
      Ok (<[name_ := {| name := name_;
                        url := url_;
                        chain_id := chain_id_;
                        endpoint_metadata := ∅ |}]> endpoints)
  | None => Raise (InvalidOverride "Invalid syntax used for MESC_ENDPOINTS")
  end.

Definition env_endpoints (env : environ) : result (gmap string Endpoint) :=
  let endpoints : gmap string Endpoint := ∅ in
  let raw_endpoints := environ_get env "MESC_ENDPOINTS" in
  items ← call_split (dict_object endpoints) " ";
  endpoints ← for_each env_endpoints_item items endpoints;
  ad_hoc_endpoints ←
    call "_collect_ad_hoc_endpoints" _collect_ad_hoc_endpoints_params 0 []
         (_collect_ad_hoc_endpoints env endpoints);
  Ok endpoints.

(** [env_global_metadata()] *)
Definition env_global_metadata_params : list string := [].

Definition env_global_metadata (env : environ) : result value :=
  let global_metadata := environ_get env "MESC_GLOBAL_METADATA" in
  if negb (is_none global_metadata) then json_loads_value global_metadata
  else Ok (VDict []).

(** [env_endpoint_metadata()] *)
Definition env_endpoint_metadata (env : environ) : result value :=
  let endpoint_metadata := environ_get env "MESC_ENDPOINT_METADATA" in
  if negb (is_none endpoint_metadata) then json_loads_value endpoint_metadata
  else Ok (VDict []).

Definition env_default_endpoint_params : list string := ["config"].

(** *** The store and [apply_env_overrides] *)

(** Configuration objects live in a store, and the caller hands over a
    reference.  An object is kept as a tree: [copy.deepcopy] gives the
    copy fresh dictionaries at every level, so a write through the copy
    reaches no dictionary of another object. *)
Definition M (A : Type) : Type :=
  gmap positive RpcConfig → result A * gmap positive RpcConfig.

#[global] Instance M_ret : MRet M := λ A a σ, (Ok a, σ).
#[global] Instance M_bind : MBind M := λ A B f m σ,
  match m σ with
  | (Ok a, σ') => f a σ'
  | (Raise e, σ') => (Raise e, σ')
  end.

Definition lift {A} (r : result A) : M A := λ σ, (r, σ).

Definition new_object (c : RpcConfig) : M positive := λ σ,
  let l := fresh (dom σ) in (Ok l, <[l := c]> σ).

Definition deepcopy (l : positive) : M positive := λ σ,
  match σ !! l with
  | Some c => new_object c σ
  | None => (Raise DanglingReference, σ)
  end.

Definition read (l : positive) : M RpcConfig := λ σ,
  match σ !! l with
  | Some c => (Ok c, σ)
  | None => (Raise DanglingReference, σ)
  end.

Definition write (l : positive) (c : RpcConfig) : M unit := λ σ,
  (Ok (), <[l := c]> σ).

Fixpoint for_each_M {A} (body : A → M unit) (xs : list A) : M unit :=
  match xs with
  | [] => mret ()
  | x :: rest => body x;; for_each_M body rest
  end.

(** [config["endpoints"][endpoint]["endpoint_metadata"].update(metadata)] *)
Definition update_endpoint_metadata (config : positive)
    (item : string * value) : M unit :=
  c ← read config;
  e ← lift (dict_getitem (endpoints c) (VStr item.1));
  m ← lift (vdict_update (endpoint_metadata e) item.2);
  write config (set_endpoints (<[item.1 := set_endpoint_metadata m e]> (endpoints c)) c).

(** [apply_env_overrides(config)]: the argument is a reference into the
    store or [None], the result the reference of the new object. *)
Definition apply_env_overrides (env : environ) (config : option positive)
    : M positive :=
  config ← match config with
           | Some l => deepcopy l
           | None => new_object empty_config
           end;
  c ← read config;
  new ← lift (call "env_endpoints" env_endpoints_params 1 []
                   (env_endpoints env));
  write config (set_endpoints (new ∪ endpoints c) c);;
  c ← read config;
  new ← lift (call "env_network_names" env_network_names_params 0 []
                   (env_network_names env));
  names ← lift (vdict_update (network_names c) new);
  write config (set_network_names names c);;
  c ← read config;
  new ← lift (call "env_network_defaults" env_network_defaults_params 0 []
                   (env_network_defaults env));
  write config (set_network_defaults (new ∪ network_defaults c) c);;
  c ← read config;
  new ← lift (call "env_profiles" env_profiles_params 0 []
                   (env_profiles env));
  write config (set_profiles (new ∪ profiles c) c);;
  c ← read config;
  default_endpoint_ ← lift (call "env_default_endpoint"
                              env_default_endpoint_params 0 []
                              (env_default_endpoint env c));
  (if negb (is_none default_endpoint_) then
     write config (set_default_endpoint default_endpoint_ c)
   else mret ());;
  c ← read config;
  new ← lift (call "env_global_metadata" env_global_metadata_params 0 []
                   (env_global_metadata env));
  metadata ← lift (vdict_update (global_metadata c) new);
  write config (set_global_metadata metadata c);;
  items ← lift (call_items (VFunction "env_endpoint_metadata"));
  for_each_M (update_endpoint_metadata config) items;;
  mret config.

End overrides.

(** ** Frames *)

(** [writes_only l0 m]: running [m] leaves every object but the one at
    [l0] as it was. *)
Definition writes_only {A} (l0 : positive) (m : M A) : Prop :=
  ∀ σ l, l ≠ l0 → (m σ).2 !! l = σ !! l.

(** ** Environments and configurations used below *)

(** The environments of the spec's examples. *)
Definition env_endpoints_set : environ :=
  {[ "MESC_ENDPOINTS" := "mainnet:1=https://mainnet.example" ]}.

Definition env_ad_hoc : environ :=
  {[ "MESC_NETWORK_DEFAULTS" := "5=https://example.com/rpc" ]}.

Definition env_chain_id_default : environ :=
  {[ "MESC_DEFAULT_ENDPOINT" := "1"; "MESC_NETWORK_DEFAULTS" := "1=mainnet" ]}.

Definition env_unknown_default : environ :=
  {[ "MESC_DEFAULT_ENDPOINT" := "nonexistent_alias" ]}.

Definition env_chain_id_without_default : environ :=
  {[ "MESC_DEFAULT_ENDPOINT" := "5" ]}.

Definition env_profiles_set : environ :=
  {[ "MESC_PROFILES" :=
       "dev.default_endpoint=mainnet dev.network_defaults.1=mainnet" ]}.

Definition mainnet : Endpoint :=
  {| name := "mainnet";
     url := "https://mainnet.example";
     chain_id := VInt 1;
     endpoint_metadata := ∅ |}.

Definition local_node : Endpoint :=
  {| name := "local";
     url := "http://localhost:8545";
     chain_id := VNone;
     endpoint_metadata := ∅ |}.

(** A base configuration with one endpoint, [local]. *)
Definition config_local : RpcConfig :=
  set_endpoints {[ "local" := local_node ]} empty_config.

(** A configuration with the endpoint [mainnet] and the network defaults
    [nd]. *)
Definition config_mainnet (nd : gmap key value) : RpcConfig :=
  set_network_defaults nd (set_endpoints {[ "mainnet" := mainnet ]} empty_config).

(** Stand-ins for the library functions where a concrete run needs them:
    a decoder that knows the empty object, a matcher that matches nothing, a
    conversion that accepts nothing, and an empty network directory. *)
Definition json_loads_minimal (s : string) : result value :=
  if String.eqb s "{}" then Ok (VDict []) else Raise JSONDecodeError.

Definition re_match_nothing (pattern s : string) : option (string → value) := None.

Definition int_of_str_nothing (s : string) : result Z :=
  Raise (ValueError "invalid literal for int()").

Definition empty_directory (alias : value) : value := VNone.

Definition env_default_mainnet : environ :=
  {[ "MESC_DEFAULT_ENDPOINT" := "mainnet" ]}.

(** The network defaults of a configuration read from a JSON document. *)
Definition network_defaults_of_json : gmap key value :=
  <[KStr "1" := VStr "mainnet"]> ∅.

Definition is_unhashable (v : value) : bool :=
  match v with VList _ | VDict _ => true | _ => false end.

(** ** Tokens *)

(** Whether the character [c] occurs in [s]. *)
Fixpoint contains (c : ascii) (s : string) : bool :=
  match s with
  | EmptyString => false
  | String a rest => Ascii.eqb a c || contains c rest
  end.

(** The text of [s] before the first [sep], all of [s] when there is none:
    the first element of [s.split(sep)]. *)
Fixpoint before (sep : ascii) (s : string) : string :=
  match s with
  | EmptyString => EmptyString
  | String c rest => if Ascii.eqb c sep then EmptyString else String c (before sep rest)
  end.

(** [sep.join(xs)]. *)
Fixpoint join (sep : ascii) (xs : list string) : string :=
  match xs with
  | [] => EmptyString
  | [x] => x
  | x :: rest => x ++ String sep (join sep rest)
  end.

(** A value of [MESC_NETWORK_NAMES] in the token form: [ALIAS=CHAIN_ID]
    tokens with one space between them, the chain ids printed by [render]. *)
Definition network_names_text (render : Z → string) (pairs : list (string * Z)) : string :=
  join " " ((λ kv, kv.1 ++ String "=" (render kv.2)) <$> pairs).

(** The dictionary [{alias: chain_id}] built from the pairs in order. *)
Definition network_names_dict (pairs : list (string * Z)) : list (string * value) :=
  fold_left (λ acc kv, assoc_set kv.1 (VInt kv.2) acc) pairs [].

Definition is_int (v : value) : bool :=
  match v with VInt _ => true | _ => false end.

(** A pair [(alias, chain_id)] whose token [ALIAS=CHAIN_ID] is cut where it
    was put together, and whose chain id [int] reads back. *)
Definition well_formed_name (int_of_str : string → result Z) (render : Z → string)
    (kv : string * Z) : Prop :=
  contains " " kv.1 = false ∧ contains "=" kv.1 = false
  ∧ contains " " (render kv.2) = false ∧ contains "=" (render kv.2) = false
  ∧ int_of_str (render kv.2) = Ok kv.2.

Definition env_network_names_tokens : environ :=
  {[ "MESC_NETWORK_NAMES" := "mainnet=1 goerli=5" ]}.

Definition env_network_names_empty : environ :=
  {[ "MESC_NETWORK_NAMES" := "" ]}.

(** The configuration [apply_env_overrides] copies: the object the
    argument refers to, the empty configuration for [None]. *)
Definition argument_value (σ : gmap positive RpcConfig) (config : option positive)
    : option RpcConfig :=
  match config with
  | Some l => σ !! l
  | None => Some empty_config
  end.

Definition env_network_names_bad_chain_id : environ :=
  {[ "MESC_NETWORK_NAMES" := "mainnet=one goerli=5" ]}.

(** The dictionaries all of whose keys are of type [str]. *)
Definition str_keys (d : gmap key value) : Prop :=
  ∀ k v, d !! k = Some v → ∃ s, k = KStr s.

(** The tokens of [MESC_PROFILES]. *)
Definition profile_default_endpoint_token (profile v : string) : string :=
  profile ++ ".default_endpoint=" ++ v.

Definition profile_network_defaults_token (profile network v : string) : string :=
  profile ++ ".network_defaults." ++ network ++ String "=" v.

(** A stand-in for [int] on a [str] of ASCII digits, and the printing of the
    numbers used in the runs below. *)
Definition digit_of (c : ascii) : option Z :=
  let n := nat_of_ascii c in
  if (48 <=? n)%nat && (n <=? 57)%nat then Some (Z.of_nat (n - 48)) else None.

Fixpoint decimal_digits (acc : Z) (s : string) : option Z :=
  match s with
  | EmptyString => Some acc
  | String c rest => d ← digit_of c; decimal_digits (10 * acc + d) rest
  end.

Definition int_of_str_decimal (s : string) : result Z :=
  match s with
  | EmptyString => Raise (ValueError "invalid literal for int()")
  | _ => match decimal_digits 0 s with
         | Some z => Ok z
         | None => Raise (ValueError "invalid literal for int()")
         end
  end.

Definition render_small (z : Z) : string :=
  if bool_decide (z = 1%Z) then "1" else if bool_decide (z = 5%Z) then "5" else "137".

(** The profiles in which no profile has a [network_defaults] dictionary. *)
Definition without_network_defaults (ps : gmap string Profile) : Prop :=
  ∀ p pr, ps !! p = Some pr → profile_network_defaults pr = None.

(** * Properties *)

(** ** Python facts the embedding relies on *)

Lemma str_split_cons (sep : ascii) (s : string) :
  ∃ hd tl, str_split sep s = hd :: tl.
Proof.
  induction s as [|c rest IH]; simpl; [by eauto|].
  destruct (Ascii.eqb c sep); [by eauto|].
  destruct IH as (hd & tl & ->). by eauto.
Qed.

Lemma str_split_max_cons (sep : ascii) (n : nat) (s : string) :
  ∃ hd tl, str_split_max sep n s = hd :: tl.
Proof.
  revert n. induction s as [|c rest IH]; intros [|m]; simpl; try by eauto.
  destruct (Ascii.eqb c sep); [by eauto|].
  destruct (IH (S m)) as (hd & tl & ->). by eauto.
Qed.

(** With [maxsplit = 1] an item has one or two parts. *)
Lemma str_split_max_1_length (sep : ascii) (s : string) :
  List.length (str_split_max sep 1 s) = 1 ∨ List.length (str_split_max sep 1 s) = 2.
Proof.
  induction s as [|c rest IH]; simpl; [by left|].
  destruct (Ascii.eqb c sep); [right; by destruct rest|].
  destruct (str_split_max sep 1 rest) as [|hd tl]; simpl in *; [by left|].
  destruct IH as [IH|IH]; [by left|by right].
Qed.

Example str_split_spaces : str_split " " "a b  c" = ["a"; "b"; ""; "c"].
Proof. reflexivity. Qed.

Example str_split_empty : str_split " " "" = [""].
Proof. reflexivity. Qed.

Example str_split_max_first : str_split_max "=" 1 "a=b=c" = ["a"; "b=c"].
Proof. reflexivity. Qed.

Example str_split_max_none : str_split_max "=" 1 "abc" = ["abc"].
Proof. reflexivity. Qed.



(** The four names the source reads without binding them. *)
Lemma unbound_names_not_global :
  Forall (λ n, n ∉ module_globals) ["string"; "name"; "chain_id"; "_is_url"].
Proof. repeat constructor; by apply (bool_decide_unpack _); vm_compute. Qed.

(** The calls whose arguments do not fit the [def]. *)
Lemma binds_env_endpoints : binds env_endpoints_params 1 [] = false.
Proof. reflexivity. Qed.

Lemma binds_env_network_defaults_none : binds env_network_defaults_params 0 [] = false.
Proof. reflexivity. Qed.

Lemma binds_env_network_defaults_replace :
  binds env_network_defaults_params 0 ["replace"] = false.
Proof. reflexivity. Qed.

Lemma binds_env_profiles_replace : binds env_profiles_params 0 ["replace"] = false.
Proof. reflexivity. Qed.

Lemma binds_env_default_endpoint : binds env_default_endpoint_params 0 [] = false.
Proof. reflexivity. Qed.

Lemma binds_collect_ad_hoc : binds _collect_ad_hoc_endpoints_params 0 [] = false.
Proof. reflexivity. Qed.

Lemma binds_no_arguments : binds [] 0 [] = true.
Proof. reflexivity. Qed.

(** A call that fits runs the body. *)
Lemma call_binds {A} fname params npos kws (body : result A) :
  binds params npos kws = true → call fname params npos kws body = body.
Proof. unfold call. by intros ->. Qed.

Lemma call_not_binds {A} fname params npos kws (body : result A) :
  binds params npos kws = false →
  call fname params npos kws body = Raise (arity_error fname).
Proof. unfold call. by intros ->. Qed.

(** ** The store: which objects a computation writes *)

Lemma writes_only_ret {A} l0 (a : A) : writes_only l0 (mret a).
Proof. by intros σ l _. Qed.

Lemma writes_only_lift {A} l0 (r : result A) : writes_only l0 (lift r).
Proof. by intros σ l _. Qed.

Lemma writes_only_read l0 l1 : writes_only l0 (read l1).
Proof. intros σ l _. unfold read. by destruct (σ !! l1). Qed.

Lemma writes_only_write l0 c : writes_only l0 (write l0 c).
Proof. intros σ l Hne. unfold write. simpl. by rewrite lookup_insert_ne. Qed.

Lemma writes_only_bind {A B} l0 (m : M A) (k : A → M B) :
  writes_only l0 m → (∀ a, writes_only l0 (k a)) → writes_only l0 (m ≫= k).
Proof.
  intros Hm Hk σ l Hne. unfold mbind, M_bind.
  specialize (Hm σ l Hne). destruct (m σ) as [[a|e] σ']; simpl in *.
  - by rewrite Hk.
  - done.
Qed.

Lemma writes_only_if {A} l0 (b : bool) (m1 m2 : M A) :
  writes_only l0 m1 → writes_only l0 m2 → writes_only l0 (if b then m1 else m2).
Proof. by destruct b. Qed.

Lemma writes_only_for_each_M {A} l0 (body : A → M unit) (xs : list A) :
  (∀ x, writes_only l0 (body x)) → writes_only l0 (for_each_M body xs).
Proof.
  intros Hbody. induction xs as [|x rest IH]; simpl.
  - apply writes_only_ret.
  - apply writes_only_bind; [apply Hbody | by intros _].
Qed.

Create HintDb frame.
#[local] Hint Resolve writes_only_ret writes_only_lift writes_only_read
  writes_only_write writes_only_if writes_only_for_each_M : frame.

Ltac frame_steps :=
  repeat first
    [ apply writes_only_bind; [|intros ?]
    | solve [eauto with frame] ].

Lemma writes_only_update_endpoint_metadata config item :
  writes_only config (update_endpoint_metadata config item).
Proof. unfold update_endpoint_metadata. frame_steps. Qed.

#[local] Hint Resolve writes_only_update_endpoint_metadata : frame.

(** A new object takes a location that no object of the store has. *)
Lemma new_object_fresh c σ l :
  (new_object c σ).1 = Ok l → σ !! l = None.
Proof.
  unfold new_object. simpl. intros [= <-].
  apply not_elem_of_dom. apply is_fresh.
Qed.

Lemma new_object_keeps c σ l c' :
  σ !! l = Some c' → (new_object c σ).2 !! l = Some c'.
Proof.
  intros Hl. unfold new_object. simpl.
  rewrite lookup_insert_ne; [done|].
  intros Heq. pose proof (is_fresh (dom σ)) as Hfresh.
  rewrite Heq in Hfresh. apply Hfresh. apply elem_of_dom. by eauto.
Qed.

Lemma deepcopy_fresh l0 σ l :
  (deepcopy l0 σ).1 = Ok l → σ !! l = None.
Proof.
  unfold deepcopy. destruct (σ !! l0); [apply new_object_fresh | done].
Qed.

Lemma deepcopy_keeps l0 σ l c' :
  σ !! l = Some c' → (deepcopy l0 σ).2 !! l = Some c'.
Proof.
  unfold deepcopy. destruct (σ !! l0); [apply new_object_keeps | done].
Qed.

(** The copy is equal to the object it was made from. *)
Lemma deepcopy_equal l0 σ c :
  σ !! l0 = Some c →
  ∃ l, (deepcopy l0 σ).1 = Ok l ∧ (deepcopy l0 σ).2 !! l = Some c ∧ l ≠ l0.
Proof.
  intros Hl. unfold deepcopy. rewrite Hl. unfold new_object. simpl.
  eexists. split; [done|]. split; [by rewrite lookup_insert_eq|].
  intros Heq. pose proof (is_fresh (dom σ)) as Hfresh.
  rewrite Heq in Hfresh. apply Hfresh. apply elem_of_dom. by eauto.
Qed.

(** An allocation followed by writes to the new object alone keeps every
    object the store had. *)
Lemma alloc_then_writes_keep {A} (alloc : M positive) (k : positive → M A) σ l c :
  (∀ l0, (alloc σ).1 = Ok l0 → σ !! l0 = None) →
  (alloc σ).2 !! l = Some c →
  (∀ l0, writes_only l0 (k l0)) →
  σ !! l = Some c →
  ((alloc ≫= k) σ).2 !! l = Some c.
Proof.
  intros Hfresh Hkeep Hk Hl. unfold mbind, M_bind.
  destruct (alloc σ) as [[l0|e] σ'] eqn:Halloc; simpl in *; [|done].
  rewrite Hk; [done|].
  intros ->. specialize (Hfresh l0 eq_refl). congruence.
Qed.

(** ** What the functions do *)

Section properties.

Context (json_loads : string → result value)
        (re_match : string → string → option (string → value))
        (int_of_str : string → result Z)
        (network_name_to_chain_id : value → value).

Let apply := apply_env_overrides json_loads re_match int_of_str
                                 network_name_to_chain_id.
Let default_endpoint_of := env_default_endpoint int_of_str
                                                network_name_to_chain_id.

(** *** [env_network_defaults] *)

Lemma env_network_defaults_unset env :
  env !! "MESC_NETWORK_DEFAULTS" = None →
  env_network_defaults int_of_str env = Raise (AttributeError "NoneType" "split").
Proof. intros H. unfold env_network_defaults, environ_get. by rewrite H. Qed.

Lemma network_defaults_entry_raises acc item :
  returns (network_defaults_entry int_of_str acc item) = false.
Proof.
  unfold network_defaults_entry.
  destruct item as [|a [|b [|c rest]]]; reflexivity.
Qed.

(** Whatever the variable holds, the function returns no mapping. *)
Lemma env_network_defaults_never_returns env :
  returns (env_network_defaults int_of_str env) = false.
Proof.
  unfold env_network_defaults, environ_get.
  destruct (env !! "MESC_NETWORK_DEFAULTS") as [s|]; [|reflexivity].
  simpl. destruct (str_split_cons " " s) as (hd & tl & ->). simpl.
  pose proof (network_defaults_entry_raises ∅ (str_split_max "=" 1 hd)) as H.
  by destruct (network_defaults_entry _ _ _).
Qed.

(** *** [env_profiles], [env_global_metadata], [env_endpoint_metadata] *)

Lemma env_profiles_unset env :
  env !! "MESC_PROFILES" = None → env_profiles env = Ok ∅.
Proof. intros H. unfold env_profiles, environ_get. by rewrite H. Qed.

Lemma env_profiles_set_raises env s :
  env !! "MESC_PROFILES" = Some s →
  env_profiles env = Raise (AttributeError "dict" "split").
Proof. intros H. unfold env_profiles, environ_get. by rewrite H. Qed.

Lemma env_global_metadata_unset env :
  env !! "MESC_GLOBAL_METADATA" = None →
  env_global_metadata json_loads env = Ok (VDict []).
Proof. intros H. unfold env_global_metadata, environ_get. by rewrite H. Qed.

Lemma env_endpoint_metadata_unset env :
  env !! "MESC_ENDPOINT_METADATA" = None →
  env_endpoint_metadata json_loads env = Ok (VDict []).
Proof. intros H. unfold env_endpoint_metadata, environ_get. by rewrite H. Qed.

(** *** [env_network_names] *)

Lemma env_network_names_unset env :
  env !! "MESC_NETWORK_NAMES" = None →
  env_network_names json_loads int_of_str env
  = Raise (AttributeError "NoneType" "startswith").
Proof. intros H. unfold env_network_names, environ_get. by rewrite H. Qed.

Lemma env_network_names_json env s :
  env !! "MESC_NETWORK_NAMES" = Some s →
  str_startswith "{" s = true →
  env_network_names json_loads int_of_str env = json_loads s.
Proof.
  intros H Hs. unfold env_network_names, environ_get. rewrite H. simpl.
  by rewrite Hs.
Qed.

(** *** [_chain_id_to_endpoint_name] and [env_default_endpoint] *)

Lemma chain_id_without_default chain_id config k :
  key_of chain_id = Ok (Some k) →
  network_defaults config !! k = None →
  _chain_id_to_endpoint_name chain_id config
  = Raise (MissingEndpoint "no endpoint for given default network").
Proof.
  intros Hk Hnone. unfold _chain_id_to_endpoint_name, vdict_get.
  rewrite Hk. simpl. by rewrite Hnone.
Qed.

Lemma chain_id_with_default chain_id config k endpoint :
  key_of chain_id = Ok (Some k) →
  network_defaults config !! k = Some endpoint →
  is_none endpoint = false →
  _chain_id_to_endpoint_name chain_id config = Ok endpoint.
Proof.
  intros Hk Hsome Hnot. unfold _chain_id_to_endpoint_name, vdict_get.
  rewrite Hk. simpl. rewrite Hsome. simpl. by rewrite Hnot.
Qed.

(** Step (a): the name of an existing endpoint is returned as it is. *)
Lemma env_default_endpoint_existing env config s e :
  env !! "MESC_DEFAULT_ENDPOINT" = Some s →
  endpoints config !! s = Some e →
  default_endpoint_of env config = Ok (VStr s).
Proof.
  intros Henv He. unfold default_endpoint_of, env_default_endpoint, environ_get.
  rewrite Henv. unfold dict_contains. simpl. rewrite He.
  by rewrite bool_decide_eq_true_2.
Qed.

(** Every other value, and an unset variable, ends at [is_decimal]. *)
Lemma env_default_endpoint_other env config :
  (∀ s, env !! "MESC_DEFAULT_ENDPOINT" = Some s → endpoints config !! s = None) →
  default_endpoint_of env config
  = Raise (AttributeError
             (type_name (environ_get env "MESC_DEFAULT_ENDPOINT")) "is_decimal").
Proof.
  intros Hnot. unfold default_endpoint_of, env_default_endpoint, environ_get.
  destruct (env !! "MESC_DEFAULT_ENDPOINT") as [s|]; [|reflexivity].
  unfold dict_contains. simpl. rewrite (Hnot s eq_refl).
  by rewrite bool_decide_eq_false_2; [|intros [? ?]].
Qed.

(** *** [apply_env_overrides] *)

(** The pass stops at its first statement, the call [env_endpoints(config)],
    with the copy made and nothing written to it. *)
Lemma apply_env_overrides_some env σ l c :
  σ !! l = Some c →
  apply env (Some l) σ
  = (Raise (arity_error "env_endpoints"), <[fresh (dom σ) := c]> σ).
Proof.
  intros Hl. unfold apply, apply_env_overrides, mbind, M_bind, deepcopy.
  rewrite Hl. unfold new_object, read. by rewrite lookup_insert_eq.
Qed.

Lemma apply_env_overrides_none env σ :
  apply env None σ
  = (Raise (arity_error "env_endpoints"), <[fresh (dom σ) := empty_config]> σ).
Proof.
  unfold apply, apply_env_overrides, mbind, M_bind, new_object, read.
  by rewrite lookup_insert_eq.
Qed.

Lemma apply_env_overrides_dangling env σ l :
  σ !! l = None → apply env (Some l) σ = (Raise DanglingReference, σ).
Proof.
  intros Hl. unfold apply, apply_env_overrides, mbind, M_bind, deepcopy.
  by rewrite Hl.
Qed.

Lemma writes_only_after_copy env config :
  ∃ k : positive → M positive,
    apply env config
    = (match config with
       | Some l => deepcopy l
       | None => new_object empty_config
       end) ≫= k
    ∧ ∀ l0, writes_only l0 (k l0).
Proof.
  eexists. split; [reflexivity|].
  intros l0. frame_steps.
Qed.

End properties.

(** ** The claims of the specification *)

Section claims.

Context (json_loads : string → result value)
        (re_match : string → string → option (string → value))
        (int_of_str : string → result Z)
        (network_name_to_chain_id : value → value).

Let apply := apply_env_overrides json_loads re_match int_of_str
                                 network_name_to_chain_id.
Let default_endpoint_of := env_default_endpoint int_of_str
                                                network_name_to_chain_id.

(** C1, on the code: with the base configuration [config_local] and
    [MESC_ENDPOINTS] set, [apply_env_overrides] ends in the [TypeError] of
    the call [env_endpoints(config)], and every object of the store is the
    base configuration as it was: no entry of the environment has been
    merged into any map. *)
Theorem apply_env_overrides_merges_nothing :
  let out := apply env_endpoints_set (Some 1%positive) {[ 1%positive := config_local ]} in
  out.1 = Raise (arity_error "env_endpoints")
  ∧ ∀ l c, out.2 !! l = Some c → c = config_local.
Proof.
  simpl. unfold apply.
  rewrite (apply_env_overrides_some _ _ _ _ _ _ 1%positive config_local);
    [|apply lookup_singleton_eq].
  split; [done|]. simpl. intros l c.
  rewrite lookup_insert. case_decide; [congruence|].
  rewrite lookup_singleton. case_decide; [congruence|done].
Qed.

(** C3, on the code: with [MESC_NETWORK_DEFAULTS="5=https://example.com/rpc"]
    no configuration is returned and no endpoint is synthesized:
    [apply_env_overrides] ends in a [TypeError] and leaves the new object
    without endpoints, [_collect_ad_hoc_endpoints] ends in the [TypeError]
    of its call [env_network_defaults(replace=False)], and
    [env_network_defaults] itself ends in a [NameError]. *)
Theorem ad_hoc_endpoint_not_synthesized :
  (apply env_ad_hoc None ∅).1 = Raise (arity_error "env_endpoints")
  ∧ (∀ l c, (apply env_ad_hoc None ∅).2 !! l = Some c → endpoints c = ∅)
  ∧ _collect_ad_hoc_endpoints int_of_str env_ad_hoc ∅
    = Raise (arity_error "env_network_defaults")
  ∧ env_network_defaults int_of_str env_ad_hoc = Raise (NameError "name").
Proof.
  unfold apply. rewrite apply_env_overrides_none. simpl.
  split; [done|]. split; [|split].
  - intros l c. rewrite lookup_insert. case_decide; [|by rewrite lookup_empty].
    by intros [= <-].
  - reflexivity.
  - vm_compute. reflexivity.
Qed.

(** C4, on the code: for every environment, argument and store,
    [apply_env_overrides] returns no configuration, so there is no first
    result to apply the overrides to a second time. *)
Theorem apply_env_overrides_never_returns env config σ :
  returns (apply env config σ).1 = false.
Proof.
  unfold apply. destruct config as [l|].
  - destruct (σ !! l) as [c|] eqn:Hl.
    + by rewrite (apply_env_overrides_some _ _ _ _ _ _ _ c).
    + by rewrite apply_env_overrides_dangling.
  - by rewrite apply_env_overrides_none.
Qed.

(** C2: for every environment and every store, the object the caller
    passes to [apply_env_overrides] is after the call what it was before,
    and so is every other object of the store: the function writes to its
    own copy alone. *)
Theorem apply_env_overrides_keeps_argument env σ l c :
  σ !! l = Some c →
  (apply env (Some l) σ).2 !! l = Some c
  ∧ ∀ l' c', σ !! l' = Some c' → (apply env (Some l) σ).2 !! l' = Some c'.
Proof.
  intros Hl.
  assert (∀ l' c', σ !! l' = Some c' → (apply env (Some l) σ).2 !! l' = Some c')
    as Hall; [|by split; [apply Hall|]].
  intros l' c' Hl'. unfold apply.
  destruct (writes_only_after_copy json_loads re_match int_of_str
              network_name_to_chain_id env (Some l)) as (k & -> & Hk).
  apply alloc_then_writes_keep; [| |done|done].
  - intros l0. apply deepcopy_fresh.
  - by apply deepcopy_keeps.
Qed.

(** C5, on the code: with [MESC_DEFAULT_ENDPOINT=1],
    [MESC_NETWORK_DEFAULTS="1=mainnet"] and an endpoint named [mainnet],
    [env_default_endpoint] does not return ["mainnet"]: whatever the
    network defaults of the configuration are, it ends in the
    [AttributeError] of [default_endpoint.is_decimal()]. *)
Theorem env_default_endpoint_chain_id_raises nd :
  default_endpoint_of env_chain_id_default (config_mainnet nd)
  = Raise (AttributeError "str" "is_decimal").
Proof.
  unfold default_endpoint_of. rewrite env_default_endpoint_other.
  - by vm_compute.
  - intros s. vm_compute. by intros [= <-].
Qed.

(** C6, on the code: with [MESC_DEFAULT_ENDPOINT=nonexistent_alias], the
    empty configuration and any network directory, [env_default_endpoint]
    ends in the [AttributeError] of [default_endpoint.is_decimal()], which
    is no [InvalidOverride]. *)
Theorem env_default_endpoint_unknown_raises :
  default_endpoint_of env_unknown_default empty_config
  = Raise (AttributeError "str" "is_decimal")
  ∧ ∀ msg, default_endpoint_of env_unknown_default empty_config
           ≠ Raise (InvalidOverride msg).
Proof.
  assert (default_endpoint_of env_unknown_default empty_config
          = Raise (AttributeError "str" "is_decimal")) as ->; [|done].
  unfold default_endpoint_of. rewrite env_default_endpoint_other.
  - by vm_compute.
  - intros s _. apply lookup_empty.
Qed.

(** C7, on the code: with [MESC_DEFAULT_ENDPOINT=5] and no network default
    configured, [env_default_endpoint] ends in the [AttributeError] of
    [default_endpoint.is_decimal()] and not in [MissingEndpoint], although
    the lookup [_chain_id_to_endpoint_name(5, config)] it would make ends
    in [MissingEndpoint]. *)
Theorem env_default_endpoint_missing_default_raises :
  default_endpoint_of env_chain_id_without_default empty_config
  = Raise (AttributeError "str" "is_decimal")
  ∧ _chain_id_to_endpoint_name (VInt 5) empty_config
    = Raise (MissingEndpoint "no endpoint for given default network").
Proof.
  split.
  - unfold default_endpoint_of. rewrite env_default_endpoint_other.
    + by vm_compute.
    + intros s _. apply lookup_empty.
  - by apply (chain_id_without_default _ _ (KInt 5)).
Qed.

(** C8, on the code: whatever [MESC_ENDPOINTS] holds, and when it is
    unset, [env_endpoints] returns no mapping and raises no
    [InvalidOverride]: it ends in the [AttributeError] of
    [endpoints.split(" ")], [endpoints] being the dictionary. *)
Theorem env_endpoints_always_raises env :
  env_endpoints re_match int_of_str env = Raise (AttributeError "dict" "split").
Proof. reflexivity. Qed.

(** C9, on the code: with
    [MESC_PROFILES="dev.default_endpoint=mainnet dev.network_defaults.1=mainnet"]
    [env_profiles] returns no profile: it ends in the [AttributeError] of
    [profiles.split(" ")]; and the body of its loop, run over the two
    tokens, ends in a [TypeError], the [network_defaults] of the new
    profile being [None]. *)
Theorem env_profiles_example_raises :
  env_profiles env_profiles_set = Raise (AttributeError "dict" "split")
  ∧ for_each env_profiles_item
      ["dev.default_endpoint=mainnet"; "dev.network_defaults.1=mainnet"] ∅
    = Raise (TypeError "'NoneType' object does not support item assignment").
Proof. split; by vm_compute. Qed.

(** C10, on the code: when [MESC_NETWORK_NAMES] is absent from the
    environment, [env_network_names] yields no empty mapping: it ends in
    the [AttributeError] of [network_names.startswith], [network_names]
    being [None]. *)
Theorem env_network_names_absent_raises :
  env_network_names json_loads int_of_str ∅
  = Raise (AttributeError "NoneType" "startswith").
Proof. by apply env_network_names_unset. Qed.

End claims.

(** A run of C2: the store holds the empty configuration at location 1 and
    the environment sets [MESC_ENDPOINTS]. *)
Lemma apply_env_overrides_keeps_argument_witness :
  let σ : gmap positive RpcConfig := {[ 1%positive := empty_config ]} in
  let out := apply_env_overrides json_loads_minimal re_match_nothing
               int_of_str_nothing empty_directory env_endpoints_set
               (Some 1%positive) σ in
  σ !! 1%positive = Some empty_config
  ∧ out.2 !! 1%positive = Some empty_config
  ∧ ∀ l' c', σ !! l' = Some c' → out.2 !! l' = Some c'.
Proof.
  split; [reflexivity|].
  apply (apply_env_overrides_keeps_argument json_loads_minimal re_match_nothing
           int_of_str_nothing empty_directory env_endpoints_set
           {[ 1%positive := empty_config ]} 1%positive empty_config).
  reflexivity.
Defined.

(** * Further properties of the functions *)

(** ** Splitting and joining *)

Lemma contains_app c a b : contains c (a ++ b) = contains c a || contains c b.
Proof.
  induction a as [|x a IH]; simpl; [done|].
  rewrite IH. by rewrite orb_assoc.
Qed.

Lemma str_split_before sep s : ∃ tl, str_split sep s = before sep s :: tl.
Proof.
  induction s as [|c rest [tl IH]]; simpl; [by eauto|].
  destruct (Ascii.eqb c sep); [by eauto|].
  rewrite IH. by eauto.
Qed.

Lemma before_no_sep sep s : contains sep s = false → before sep s = s.
Proof.
  induction s as [|c rest IH]; simpl; [done|].
  intros [Hc Hrest]%orb_false_elim. rewrite Hc. by rewrite IH.
Qed.

Lemma before_app sep a b : contains sep a = false → before sep (a ++ String sep b) = a.
Proof.
  induction a as [|c rest IH]; simpl.
  - intros _. by rewrite Ascii.eqb_refl.
  - intros [Hc Hrest]%orb_false_elim. rewrite Hc. by rewrite IH.
Qed.

Lemma contains_before sep s : contains sep (before sep s) = false.
Proof.
  induction s as [|c rest IH]; simpl; [done|].
  destruct (Ascii.eqb c sep) eqn:Hc; simpl; [done|]. by rewrite Hc.
Qed.

Lemma str_split_no_sep sep s : contains sep s = false → str_split sep s = [s].
Proof.
  induction s as [|c rest IH]; simpl; [done|].
  intros [Hc Hrest]%orb_false_elim. rewrite Hc. by rewrite IH.
Qed.

Lemma str_split_app sep a b :
  contains sep a = false →
  str_split sep (a ++ String sep b) = a :: str_split sep b.
Proof.
  induction a as [|c rest IH]; simpl.
  - intros _. by rewrite Ascii.eqb_refl.
  - intros [Hc Hrest]%orb_false_elim. rewrite Hc. by rewrite IH.
Qed.

Lemma str_split_join sep xs :
  xs ≠ [] → Forall (λ x, contains sep x = false) xs →
  str_split sep (join sep xs) = xs.
Proof.
  induction xs as [|x rest IH]; [done|]. intros _ Hall.
  apply Forall_cons in Hall as [Hx Hrest].
  destruct rest as [|y rest]; simpl.
  - by apply str_split_no_sep.
  - rewrite str_split_app; [|done]. f_equal. by apply IH.
Qed.

Lemma str_split_max_1_no_sep sep s :
  contains sep s = false → str_split_max sep 1 s = [s].
Proof.
  induction s as [|c rest IH]; simpl; [done|].
  intros [Hc Hrest]%orb_false_elim. rewrite Hc. by rewrite IH.
Qed.

Lemma str_split_max_1_sep sep s :
  contains sep s = true → ∃ a b, str_split_max sep 1 s = [a; b].
Proof.
  induction s as [|c rest IH]; simpl; [done|].
  destruct (Ascii.eqb c sep) eqn:Hc; simpl.
  - intros _. destruct rest; by eauto.
  - intros Hrest. destruct (IH Hrest) as (a & b & ->). by eauto.
Qed.

(** A loop keeps what its body keeps. *)
Lemma for_each_invariant {A S} (P : S → Prop) (body : S → A → result S) xs s s' :
  (∀ s x s', P s → body s x = Ok s' → P s') →
  P s → for_each body xs s = Ok s' → P s'.
Proof.
  intros Hbody. revert s. induction xs as [|x rest IH]; simpl; intros s Hs.
  - by intros [= <-].
  - destruct (body s x) as [s1|e] eqn:Hb; simpl; [|done].
    apply IH. by eapply Hbody.
Qed.

Section lookups.

Context (int_of_str : string → result Z)
        (network_name_to_chain_id : value → value).

Let default_endpoint_of := env_default_endpoint int_of_str
                                                network_name_to_chain_id.

(** ** [_chain_id_to_endpoint_name] *)

Lemma chain_id_result chain_id config :
  match key_of chain_id with
  | Raise e => _chain_id_to_endpoint_name chain_id config = Raise e
  | Ok ko =>
      match ko ≫= (network_defaults config !!.) with
      | Some v =>
          if is_none v then
            _chain_id_to_endpoint_name chain_id config
            = Raise (MissingEndpoint "no endpoint for given default network")
          else _chain_id_to_endpoint_name chain_id config = Ok v
      | None =>
          _chain_id_to_endpoint_name chain_id config
          = Raise (MissingEndpoint "no endpoint for given default network")
      end
  end.
Proof.
  unfold _chain_id_to_endpoint_name, vdict_get.
  destruct (key_of chain_id) as [ko|e]; simpl; [|done].
  destruct (ko ≫= _) as [v|]; simpl; [|done].
  by destruct (is_none v).
Qed.

(** X1: what [_chain_id_to_endpoint_name] returns is never [None]: it is the
    entry that [network_defaults] has under the key of the chain id. *)
Theorem chain_id_to_endpoint_name_sound chain_id config v :
  _chain_id_to_endpoint_name chain_id config = Ok v →
  v ≠ VNone
  ∧ ∃ k, key_of chain_id = Ok (Some k) ∧ network_defaults config !! k = Some v.
Proof.
  pose proof (chain_id_result chain_id config) as H.
  destruct (key_of chain_id) as [[k|]|e]; simpl in H; try congruence.
  destruct (network_defaults config !! k) as [v'|] eqn:Hk; [|congruence].
  destruct (is_none v') eqn:Hnone; [congruence|].
  rewrite H. intros [= <-]. split; [by intros ->|]. by eauto.
Qed.

(** X2: a chain id without an entry, and a chain id whose entry is [None],
    both end in [MissingEndpoint]. *)
Theorem chain_id_to_endpoint_name_missing chain_id config k :
  key_of chain_id = Ok (Some k) →
  default VNone (network_defaults config !! k) = VNone →
  _chain_id_to_endpoint_name chain_id config
  = Raise (MissingEndpoint "no endpoint for given default network").
Proof.
  intros Hk Hnone. pose proof (chain_id_result chain_id config) as H.
  rewrite Hk in H. simpl in H.
  destruct (network_defaults config !! k) as [v|]; [|done].
  simpl in Hnone. by rewrite Hnone in H.
Qed.

(** X3: in network defaults all of whose keys are of type [str], as the
    annotation of [env_network_defaults] and a JSON document have them, the
    lookup of an [int] chain id finds nothing and ends in [MissingEndpoint],
    also for the chain id whose decimal form is a key. *)
Theorem chain_id_int_misses_str_keys z config :
  str_keys (network_defaults config) →
  _chain_id_to_endpoint_name (VInt z) config
  = Raise (MissingEndpoint "no endpoint for given default network").
Proof.
  intros Hkeys. pose proof (chain_id_result (VInt z) config) as H. simpl in H.
  destruct (network_defaults config !! KInt z) as [v|] eqn:Hz; [|done].
  by destruct (Hkeys _ _ Hz) as [s [=]].
Qed.

(** X4: the errors of [_chain_id_to_endpoint_name]: a [TypeError] for a
    chain id that is a list or a dictionary, and [MissingEndpoint] for every
    other one. *)
Theorem chain_id_to_endpoint_name_errors chain_id config e :
  _chain_id_to_endpoint_name chain_id config = Raise e →
  if is_unhashable chain_id then e = TypeError "unhashable type"
  else e = MissingEndpoint "no endpoint for given default network".
Proof.
  pose proof (chain_id_result chain_id config) as H.
  destruct chain_id; simpl in *;
    try (by rewrite H; intros [= <-]);
    repeat match type of H with
           | match ?x with _ => _ end => destruct x; simpl in H
           | if ?x then _ else _ => destruct x; simpl in H
           end; rewrite H; by intros [= <-].
Qed.

(** ** [env_default_endpoint] *)

Lemma env_default_endpoint_result env config :
  match env !! "MESC_DEFAULT_ENDPOINT" with
  | None =>
      default_endpoint_of env config
      = Raise (AttributeError "NoneType" "is_decimal")
  | Some s =>
      match endpoints config !! s with
      | Some _ => default_endpoint_of env config = Ok (VStr s)
      | None =>
          default_endpoint_of env config
          = Raise (AttributeError "str" "is_decimal")
      end
  end.
Proof.
  unfold default_endpoint_of, env_default_endpoint, environ_get, dict_contains.
  destruct (env !! "MESC_DEFAULT_ENDPOINT") as [s|]; simpl; [|done].
  destruct (endpoints config !! s) as [e|]; by vm_compute.
Qed.

(** X5: whatever [env_default_endpoint] returns is the value of
    [MESC_DEFAULT_ENDPOINT] and the name of an endpoint of the
    configuration. *)
Theorem env_default_endpoint_sound env config v :
  default_endpoint_of env config = Ok v →
  ∃ s e, v = VStr s
         ∧ env !! "MESC_DEFAULT_ENDPOINT" = Some s
         ∧ endpoints config !! s = Some e.
Proof.
  pose proof (env_default_endpoint_result env config) as H.
  destruct (env !! "MESC_DEFAULT_ENDPOINT") as [s|]; [|congruence].
  destruct (endpoints config !! s) as [e|] eqn:He; [|congruence].
  rewrite H. intros [= <-]. by eauto.
Qed.

(** X6: for every environment, configuration and network directory,
    [env_default_endpoint] ends neither in [InvalidOverride] nor in
    [MissingEndpoint], and returns no exception object. *)
Theorem env_default_endpoint_never_override_error env config :
  (∀ msg, default_endpoint_of env config ≠ Raise (InvalidOverride msg))
  ∧ (∀ msg, default_endpoint_of env config ≠ Raise (MissingEndpoint msg))
  ∧ (∀ e, default_endpoint_of env config ≠ Ok (VExc e)).
Proof.
  pose proof (env_default_endpoint_result env config) as H.
  destruct (env !! "MESC_DEFAULT_ENDPOINT") as [s|];
    [destruct (endpoints config !! s)|]; rewrite H; by repeat split.
Qed.

(** X7: when [MESC_DEFAULT_ENDPOINT] is unset, [env_default_endpoint] does
    not return [None]: it ends in the [AttributeError] of
    [None.is_decimal()]. *)
Theorem env_default_endpoint_unset env config :
  env !! "MESC_DEFAULT_ENDPOINT" = None →
  default_endpoint_of env config = Raise (AttributeError "NoneType" "is_decimal").
Proof.
  intros Hunset. pose proof (env_default_endpoint_result env config) as H.
  by rewrite Hunset in H.
Qed.

End lookups.

(** ** Association lists *)

Lemma assoc_set_keys {V} (k : string) (v : V) d x :
  x ∈ (assoc_set k v d).*1 ↔ x = k ∨ x ∈ d.*1.
Proof.
  induction d as [|[k' v'] rest IH]; simpl.
  - rewrite list_elem_of_singleton. split; [by left|].
    intros [->|Hin]; [done|]. by apply elem_of_nil in Hin.
  - destruct (String.eqb k k') eqn:Hk; simpl.
    + apply String.eqb_eq in Hk as ->. rewrite !elem_of_cons. tauto.
    + rewrite !elem_of_cons, IH. tauto.
Qed.

Lemma assoc_set_NoDup {V} (k : string) (v : V) d :
  NoDup d.*1 → NoDup (assoc_set k v d).*1.
Proof.
  induction d as [|[k' v'] rest IH]; simpl; intros Hnd.
  - apply NoDup_singleton.
  - apply NoDup_cons in Hnd as [Hfresh Hnd].
    destruct (String.eqb k k') eqn:Hk; simpl.
    + apply String.eqb_eq in Hk as ->. by apply NoDup_cons.
    + apply String.eqb_neq in Hk. apply NoDup_cons. split; [|by apply IH].
      rewrite assoc_set_keys. intros [Heq|Hin]; [by subst|done].
Qed.

Lemma assoc_set_Forall {V} (P : string * V → Prop) k v d :
  P (k, v) → Forall P d → Forall P (assoc_set k v d).
Proof.
  intros Hkv. induction d as [|[k' v'] rest IH]; simpl; intros Hall.
  - by repeat constructor.
  - apply Forall_cons in Hall as [Hhd Hrest].
    destruct (String.eqb k k'); constructor; by auto.
Qed.

Section parsers.

Context (json_loads : string → result value)
        (int_of_str : string → result Z).

(** ** [env_network_defaults] *)

(** X8: [env_network_defaults] returns for no environment.  It ends in an
    [AttributeError] when [MESC_NETWORK_DEFAULTS] is unset, in the
    [NameError] of [name] when the text before the first space has an [=],
    and in the [ValueError] of the unpacking when it has none. *)
Theorem env_network_defaults_outcome env :
  env_network_defaults int_of_str env
  = match env !! "MESC_NETWORK_DEFAULTS" with
    | None => Raise (AttributeError "NoneType" "split")
    | Some s =>
        if contains "=" (before " " s) then Raise (NameError "name")
        else Raise (ValueError "unpack: expected 2 values")
    end.
Proof.
  unfold env_network_defaults, environ_get.
  destruct (env !! "MESC_NETWORK_DEFAULTS") as [s|]; [|done]. simpl.
  destruct (str_split_before " " s) as [tl ->]. simpl.
  destruct (contains "=" (before " " s)) eqn:Hc.
  - destruct (str_split_max_1_sep _ _ Hc) as (a & b & ->). done.
  - by rewrite (str_split_max_1_no_sep _ _ Hc).
Qed.

(** ** [env_network_names] *)

Lemma network_names_loop render pairs acc :
  Forall (well_formed_name int_of_str render) pairs →
  for_each (λ acc pair,
              '(k, v) ← unpack2 pair;
              n ← int_of_str v;
              Ok (assoc_set k (VInt n) acc))
           ((λ item, str_split "=" item)
              <$> ((λ kv, kv.1 ++ String "=" (render kv.2)) <$> pairs)) acc
  = Ok (fold_left (λ acc kv, assoc_set kv.1 (VInt kv.2) acc) pairs acc).
Proof.
  revert acc. induction pairs as [|[k z] rest IH]; intros acc Hall; [done|].
  apply Forall_cons in Hall as [(_ & Hk & _ & Hr & Hint) Hrest]. simpl in *.
  rewrite str_split_app; [|done]. rewrite str_split_no_sep; [|done]. simpl.
  rewrite Hint. simpl. by apply IH.
Qed.

Lemma network_names_tokens_no_space render pairs :
  Forall (well_formed_name int_of_str render) pairs →
  Forall (λ x, contains " " x = false)
         ((λ kv, kv.1 ++ String "=" (render kv.2)) <$> pairs).
Proof.
  intros Hall. apply Forall_fmap. eapply Forall_impl; [exact Hall|].
  intros [k z] (Hk & _ & Hr & _). simpl in *.
  rewrite contains_app. simpl. by rewrite Hk, Hr.
Qed.

(** X9: the token form of [MESC_NETWORK_NAMES] reads back: for pairs whose
    aliases and printed chain ids have neither a space nor an [=], joined by
    single spaces into a text that does not start with a brace,
    [env_network_names] returns the dictionary of the pairs, a later pair
    replacing an earlier one of the same alias. *)
Theorem env_network_names_reads_tokens render env pairs :
  pairs ≠ [] →
  Forall (well_formed_name int_of_str render) pairs →
  str_startswith "{" (network_names_text render pairs) = false →
  env !! "MESC_NETWORK_NAMES" = Some (network_names_text render pairs) →
  env_network_names json_loads int_of_str env
  = Ok (VDict (network_names_dict pairs)).
Proof.
  intros Hne Hall Hbrace Henv.
  unfold env_network_names, environ_get. rewrite Henv. simpl. rewrite Hbrace.
  unfold network_names_text. rewrite str_split_join.
  - rewrite network_names_loop; done.
  - by destruct pairs.
  - by apply network_names_tokens_no_space.
Qed.

(** X10: a dictionary that [env_network_names] builds from tokens has every
    alias once and an [int] for every alias. *)
Theorem env_network_names_tokens_ints env s v :
  env !! "MESC_NETWORK_NAMES" = Some s →
  str_startswith "{" s = false →
  env_network_names json_loads int_of_str env = Ok v →
  ∃ d, v = VDict d ∧ NoDup d.*1 ∧ Forall (λ kv, is_int kv.2 = true) d.
Proof.
  intros Henv Hbrace.
  unfold env_network_names, environ_get. rewrite Henv. simpl. rewrite Hbrace.
  simpl.
  match goal with
  | |- context [for_each ?body ?xs ?acc] => destruct (for_each body xs acc) as [d|e] eqn:Hloop
  end; simpl; [|done].
  intros [= <-]. exists d. split; [done|].
  revert Hloop.
  apply (for_each_invariant
           (λ d : list (string * value),
              NoDup d.*1 ∧ Forall (λ kv, is_int kv.2 = true) d)).
  - intros acc pair acc' [Hnd Hints] Hbody.
    destruct (unpack2 pair) as [[k x]|?]; simpl in Hbody; [|done].
    destruct (int_of_str x) as [n|?]; simpl in Hbody; [|done].
    injection Hbody as <-. split.
    + by apply assoc_set_NoDup.
    + by apply assoc_set_Forall.
  - split; [apply NoDup_nil_2 | apply Forall_nil_2].
Qed.

(** X11: a value of [MESC_NETWORK_NAMES] that does not start with a brace
    and has no [=] before its first space ends in the [ValueError] of the
    unpacking; the empty string is such a value. *)
Theorem env_network_names_token_without_equals env s :
  env !! "MESC_NETWORK_NAMES" = Some s →
  str_startswith "{" s = false →
  contains "=" (before " " s) = false →
  env_network_names json_loads int_of_str env
  = Raise (ValueError "unpack: expected 2 values").
Proof.
  intros Henv Hbrace Hc.
  unfold env_network_names, environ_get. rewrite Henv. simpl. rewrite Hbrace.
  simpl. destruct (str_split_before " " s) as [tl ->]. simpl.
  by rewrite (str_split_no_sep _ _ Hc).
Qed.

(** X20: when the first token of [MESC_NETWORK_NAMES] is [ALIAS=TEXT] and
    [int] refuses [TEXT], [env_network_names] ends in the exception of
    [int]: it is not turned into another one. *)
Theorem env_network_names_bad_chain_id_raises env s k x e :
  env !! "MESC_NETWORK_NAMES" = Some s →
  str_startswith "{" s = false →
  before " " s = k ++ String "=" x →
  contains "=" k = false → contains "=" x = false →
  int_of_str x = Raise e →
  env_network_names json_loads int_of_str env = Raise e.
Proof.
  intros Henv Hbrace Hfirst Hk Hx Hint.
  unfold env_network_names, environ_get. rewrite Henv. simpl. rewrite Hbrace.
  simpl. destruct (str_split_before " " s) as [tl ->]. simpl.
  rewrite Hfirst. rewrite str_split_app; [|done].
  rewrite str_split_no_sep; [|done]. simpl. by rewrite Hint.
Qed.

End parsers.

(** ** [env_profiles] *)

Lemma string_app_assoc (a b c : string) : (a ++ b) ++ c = a ++ (b ++ c).
Proof.
  induction a as [|x a IH]; [done|].
  change (String x ((a ++ b) ++ c) = String x (a ++ (b ++ c))). by f_equal.
Qed.

Lemma setdefault_lookup k p d : setdefault k p d !! k = Some (default p (d !! k)).
Proof.
  unfold setdefault. destruct (d !! k) as [q|] eqn:Hk; simpl; [done|].
  by rewrite lookup_insert_eq.
Qed.

Lemma insert_setdefault k p q d : <[k := q]> (setdefault k p d) = <[k := q]> d.
Proof.
  unfold setdefault. destruct (d !! k); [done|]. by rewrite insert_insert_eq.
Qed.

Lemma setdefault_without_network_defaults k d :
  without_network_defaults d →
  without_network_defaults (setdefault k new_profile d).
Proof.
  intros Hd p pr. unfold setdefault. destruct (d !! k) eqn:Hk; [by apply Hd|].
  rewrite lookup_insert. case_decide; [by intros [= <-]|by apply Hd].
Qed.

Lemma default_endpoint_token_split p v :
  contains "." p = false → contains "=" p = false → contains "=" v = false →
  str_split "=" (profile_default_endpoint_token p v) = [p ++ ".default_endpoint"; v]
  ∧ str_split "." (p ++ ".default_endpoint") = [p; "default_endpoint"].
Proof.
  intros Hdot Heq Hv. unfold profile_default_endpoint_token. split.
  - change (p ++ ".default_endpoint=" ++ v)
      with (p ++ (".default_endpoint" ++ String "=" v)).
    rewrite <- string_app_assoc. rewrite str_split_app.
    + by rewrite str_split_no_sep.
    + rewrite contains_app. by rewrite Heq.
  - change (p ++ ".default_endpoint") with (p ++ String "." "default_endpoint").
    by rewrite str_split_app.
Qed.

Lemma network_defaults_token_split p n v :
  contains "." p = false → contains "=" p = false →
  contains "." n = false → contains "=" n = false → contains "=" v = false →
  str_split "=" (profile_network_defaults_token p n v)
  = [p ++ ".network_defaults." ++ n; v]
  ∧ str_split "." (p ++ ".network_defaults." ++ n) = [p; "network_defaults"; n].
Proof.
  intros Hdot Heq Hndot Hneq Hv. unfold profile_network_defaults_token. split.
  - rewrite <- (string_app_assoc ".network_defaults." n).
    rewrite <- (string_app_assoc p). rewrite str_split_app.
    + by rewrite str_split_no_sep.
    + rewrite !contains_app. by rewrite Heq, Hneq.
  - change (p ++ ".network_defaults." ++ n)
      with (p ++ String "." ("network_defaults" ++ String "." n)).
    rewrite str_split_app; [|done]. rewrite str_split_app; [|done].
    by rewrite str_split_no_sep.
Qed.

(** X12: [env_profiles] returns exactly when [MESC_PROFILES] is unset, and
    then the empty mapping; for every value of the variable, the empty
    string too, it ends in the [AttributeError] of [profiles.split]. *)
Theorem env_profiles_outcome env :
  env_profiles env
  = match env !! "MESC_PROFILES" with
    | None => Ok ∅
    | Some _ => Raise (AttributeError "dict" "split")
    end.
Proof.
  unfold env_profiles, environ_get. by destruct (env !! "MESC_PROFILES").
Qed.

(** X13: the body of the loop of [env_profiles] on a token
    [PROFILE.default_endpoint=VALUE]: the profile gets [VALUE] as its default
    endpoint and keeps its network defaults, a profile not yet there is
    created, and the other profiles stay. *)
Theorem env_profiles_item_default_endpoint ps p v :
  contains "." p = false → contains "=" p = false → contains "=" v = false →
  env_profiles_item ps (profile_default_endpoint_token p v)
  = Ok (<[p := mkProfile (VStr v)
                 (profile_network_defaults (default new_profile (ps !! p)))]> ps).
Proof.
  intros Hdot Heq Hv.
  destruct (default_endpoint_token_split p v Hdot Heq Hv) as [Hsplit Hkey].
  unfold env_profiles_item. rewrite Hsplit. simpl. rewrite Hkey. simpl.
  unfold dict_getitem. simpl. rewrite setdefault_lookup. simpl.
  by rewrite insert_setdefault.
Qed.

Lemma env_profiles_item_keeps ps item ps' :
  without_network_defaults ps →
  env_profiles_item ps item = Ok ps' →
  without_network_defaults ps'.
Proof.
  intros Hps. unfold env_profiles_item.
  destruct (unpack2 (str_split "=" item)) as [[key_ value_]|?]; simpl; [|done].
  destruct (index (str_split "." key_) 0) as [subkey0|?]; simpl; [|done].
  pose proof (setdefault_without_network_defaults subkey0 ps Hps) as Hset.
  set (ps1 := setdefault subkey0 new_profile ps) in *.
  destruct (if bool_decide (List.length (str_split "." key_) = 2) then _ else _)
    as [[|]|?]; simpl; [| |done].
  - unfold dict_getitem. simpl.
    destruct (ps1 !! subkey0) as [pr|] eqn:Hpr; simpl; [|done].
    intros [= <-] q qr. rewrite lookup_insert.
    case_decide; [|by apply Hset]. intros [= <-]. simpl. by eapply Hset.
  - destruct (if bool_decide (List.length (str_split "." key_) = 3) then _ else _)
      as [[|]|?]; simpl; [| |done]; [|done].
    destruct (unpack3 (str_split "." key_)) as [[[name_ ?] network]|?]; simpl; [|done].
    unfold dict_getitem. simpl.
    destruct (ps1 !! name_) as [pr|] eqn:Hpr; simpl; [|done].
    by rewrite (Hset _ _ Hpr).
Qed.

(** X14: the loop of [env_profiles], started on the empty dictionary, gives
    no profile a [network_defaults] dictionary: in every profile of a
    result the field is [None]. *)
Theorem env_profiles_loop_without_network_defaults items ps :
  for_each env_profiles_item items ∅ = Ok ps →
  without_network_defaults ps.
Proof.
  apply (for_each_invariant without_network_defaults).
  - intros s x s'. apply env_profiles_item_keeps.
  - intros p pr. by rewrite lookup_empty.
Qed.

(** X15: on profiles without [network_defaults] dictionaries, as the loop
    has them, the body ends in a [TypeError] on every token
    [PROFILE.network_defaults.CHAIN_ID=VALUE]. *)
Theorem env_profiles_item_network_defaults ps p n v :
  contains "." p = false → contains "=" p = false →
  contains "." n = false → contains "=" n = false → contains "=" v = false →
  without_network_defaults ps →
  env_profiles_item ps (profile_network_defaults_token p n v)
  = Raise (TypeError "'NoneType' object does not support item assignment").
Proof.
  intros Hdot Heq Hndot Hneq Hv Hps.
  destruct (network_defaults_token_split p n v Hdot Heq Hndot Hneq Hv)
    as [Hsplit Hkey].
  unfold env_profiles_item. rewrite Hsplit. simpl. rewrite Hkey. simpl.
  unfold dict_getitem. simpl. rewrite setdefault_lookup. simpl.
  destruct (ps !! p) as [pr|] eqn:Hp; simpl; [|done].
  by rewrite (Hps _ _ Hp).
Qed.

(** X16: the body of the loop of [env_profiles] ends in [InvalidOverride]
    on no token. *)
Theorem env_profiles_item_never_invalid_override ps item msg :
  env_profiles_item ps item ≠ Raise (InvalidOverride msg).
Proof.
  unfold env_profiles_item, unpack2, unpack3, index, dict_getitem.
  repeat match goal with
         | |- context [match ?x with _ => _ end] =>
             lazymatch x with
             | context [match _ with _ => _ end] => fail
             | _ => destruct x eqn:?; simpl; try done
             end
         end.
Qed.

Lemma without_network_defaults_empty : without_network_defaults ∅.
Proof. intros p pr. by rewrite lookup_empty. Qed.

(** ** [apply_env_overrides] and the statement of its last loop *)

Section store_effects.

Context (json_loads : string → result value)
        (re_match : string → string → option (string → value))
        (int_of_str : string → result Z)
        (network_name_to_chain_id : value → value).

Let apply := apply_env_overrides json_loads re_match int_of_str
                                 network_name_to_chain_id.

(** X17: the whole effect of [apply_env_overrides] on the store is one new
    object, at a location that held nothing, equal to the configuration
    passed (to the empty configuration of version 1.0 for [None]). *)
Theorem apply_env_overrides_store env config σ c :
  argument_value σ config = Some c →
  ∃ l, σ !! l = None ∧ (apply env config σ).2 = <[l := c]> σ.
Proof.
  intros Harg. exists (fresh (dom σ)). split.
  - apply not_elem_of_dom. apply is_fresh.
  - unfold apply. destruct config as [l0|]; simpl in Harg.
    + by rewrite (apply_env_overrides_some _ _ _ _ _ _ _ c).
    + injection Harg as <-. by rewrite apply_env_overrides_none.
Qed.

End store_effects.

(** X18: the statement
    [config["endpoints"][endpoint]["endpoint_metadata"].update(metadata)],
    run for an endpoint the configuration does not have, ends in a
    [KeyError] and leaves the store as it was: no endpoint is created for
    the metadata. *)
Theorem update_endpoint_metadata_unknown_endpoint config σ c nm metadata :
  σ !! config = Some c →
  endpoints c !! nm = None →
  update_endpoint_metadata config (nm, metadata) σ = (Raise (KeyError nm), σ).
Proof.
  intros Hc Hnm.
  unfold update_endpoint_metadata, mbind, M_bind, read, lift, dict_getitem.
  rewrite Hc. simpl. by rewrite Hnm.
Qed.


(** ** Runs of the properties *)

Lemma chain_id_to_endpoint_name_sound_witness :
  VStr "mainnet" ≠ VNone
  ∧ ∃ k, key_of (VStr "1") = Ok (Some k)
         ∧ network_defaults (config_mainnet network_defaults_of_json) !! k
           = Some (VStr "mainnet").
Proof.
  apply (chain_id_to_endpoint_name_sound (VStr "1")
           (config_mainnet network_defaults_of_json) (VStr "mainnet")).
  vm_compute. reflexivity.
Defined.

Lemma chain_id_to_endpoint_name_missing_witness :
  _chain_id_to_endpoint_name (VInt 5) empty_config
  = Raise (MissingEndpoint "no endpoint for given default network").
Proof.
  apply (chain_id_to_endpoint_name_missing (VInt 5) empty_config (KInt 5));
    reflexivity.
Defined.

Lemma network_defaults_of_json_str_keys : str_keys network_defaults_of_json.
Proof.
  intros k v. unfold network_defaults_of_json. rewrite lookup_insert.
  case_decide; [by eauto|]. by rewrite lookup_empty.
Qed.

Lemma chain_id_int_misses_str_keys_witness :
  _chain_id_to_endpoint_name (VInt 1) (config_mainnet network_defaults_of_json)
  = Raise (MissingEndpoint "no endpoint for given default network").
Proof.
  apply (chain_id_int_misses_str_keys 1 (config_mainnet network_defaults_of_json)).
  apply network_defaults_of_json_str_keys.
Defined.

Lemma env_network_names_bad_chain_id_raises_witness :
  env_network_names json_loads_minimal int_of_str_decimal
    env_network_names_bad_chain_id
  = Raise (ValueError "invalid literal for int()").
Proof.
  apply (env_network_names_bad_chain_id_raises json_loads_minimal
           int_of_str_decimal env_network_names_bad_chain_id
           "mainnet=one goerli=5" "mainnet" "one");
    reflexivity.
Defined.

Lemma chain_id_to_endpoint_name_errors_witness :
  TypeError "unhashable type" = TypeError "unhashable type".
Proof.
  apply (chain_id_to_endpoint_name_errors (VList [VInt 1]) empty_config
           (TypeError "unhashable type")).
  reflexivity.
Defined.

Lemma env_default_endpoint_sound_witness :
  ∃ s e, VStr "mainnet" = VStr s
         ∧ env_default_mainnet !! "MESC_DEFAULT_ENDPOINT" = Some s
         ∧ endpoints (config_mainnet ∅) !! s = Some e.
Proof.
  apply (env_default_endpoint_sound int_of_str_nothing empty_directory
           env_default_mainnet (config_mainnet ∅) (VStr "mainnet")).
  vm_compute. reflexivity.
Defined.

Lemma env_default_endpoint_unset_witness :
  env_default_endpoint int_of_str_nothing empty_directory ∅ empty_config
  = Raise (AttributeError "NoneType" "is_decimal").
Proof.
  apply (env_default_endpoint_unset int_of_str_nothing empty_directory ∅
           empty_config).
  reflexivity.
Defined.

Lemma env_network_names_reads_tokens_witness :
  env_network_names json_loads_minimal int_of_str_decimal env_network_names_tokens
  = Ok (VDict (network_names_dict [("mainnet", 1%Z); ("goerli", 5%Z)])).
Proof.
  apply (env_network_names_reads_tokens json_loads_minimal int_of_str_decimal
           render_small env_network_names_tokens
           [("mainnet", 1%Z); ("goerli", 5%Z)]).
  - discriminate.
  - repeat constructor.
  - reflexivity.
  - vm_compute. reflexivity.
Defined.

Lemma env_network_names_tokens_ints_witness :
  ∃ d, VDict [("mainnet", VInt 1); ("goerli", VInt 5)] = VDict d
       ∧ NoDup d.*1 ∧ Forall (λ kv, is_int kv.2 = true) d.
Proof.
  apply (env_network_names_tokens_ints json_loads_minimal int_of_str_decimal
           env_network_names_tokens "mainnet=1 goerli=5"
           (VDict [("mainnet", VInt 1); ("goerli", VInt 5)])).
  - vm_compute. reflexivity.
  - reflexivity.
  - vm_compute. reflexivity.
Defined.

Lemma env_network_names_token_without_equals_witness :
  env_network_names json_loads_minimal int_of_str_decimal env_network_names_empty
  = Raise (ValueError "unpack: expected 2 values").
Proof.
  apply (env_network_names_token_without_equals json_loads_minimal
           int_of_str_decimal env_network_names_empty "").
  - vm_compute. reflexivity.
  - reflexivity.
  - reflexivity.
Defined.

Lemma env_profiles_item_default_endpoint_witness :
  env_profiles_item ∅ (profile_default_endpoint_token "dev" "mainnet")
  = Ok (<["dev" := mkProfile (VStr "mainnet")
                     (profile_network_defaults
                        (default new_profile
                           ((∅ : gmap string Profile) !! "dev")))]> ∅).
Proof.
  apply (env_profiles_item_default_endpoint ∅ "dev" "mainnet"); reflexivity.
Defined.

Lemma env_profiles_loop_without_network_defaults_witness :
  without_network_defaults {[ "dev" := mkProfile (VStr "mainnet") None ]}.
Proof.
  apply (env_profiles_loop_without_network_defaults
           ["dev.default_endpoint=mainnet"]).
  vm_compute. reflexivity.
Defined.

Lemma env_profiles_item_network_defaults_witness :
  env_profiles_item ∅ (profile_network_defaults_token "dev" "1" "mainnet")
  = Raise (TypeError "'NoneType' object does not support item assignment").
Proof.
  apply (env_profiles_item_network_defaults ∅ "dev" "1" "mainnet");
    try reflexivity.
  apply without_network_defaults_empty.
Defined.

Lemma apply_env_overrides_store_witness :
  ∃ l, (∅ : gmap positive RpcConfig) !! l = None
       ∧ (apply_env_overrides json_loads_minimal re_match_nothing
            int_of_str_nothing empty_directory env_endpoints_set None ∅).2
         = <[l := empty_config]> ∅.
Proof.
  apply (apply_env_overrides_store json_loads_minimal re_match_nothing
           int_of_str_nothing empty_directory env_endpoints_set None ∅
           empty_config).
  reflexivity.
Defined.

Lemma update_endpoint_metadata_unknown_endpoint_witness :
  update_endpoint_metadata 1%positive ("mainnet", VDict [])
    {[ 1%positive := empty_config ]}
  = (Raise (KeyError "mainnet"), {[ 1%positive := empty_config ]}).
Proof.
  apply (update_endpoint_metadata_unknown_endpoint 1%positive
           {[ 1%positive := empty_config ]} empty_config "mainnet" (VDict []));
    reflexivity.
Defined.

